(** * Maestro renderer: agentStore and platformUtils

    A shallow embedding of two renderer units of Maestro:

    - [src/renderer/utils/platformUtils.ts]: [getRevealLabel];
    - [src/renderer/stores/agentStore.ts]: the zustand store that composes
      sessionStore mutations with calls over the IPC bridge
      ([window.maestro]).

    The store's actions are written in a small state-and-exception monad
    over a [World] that holds the session store, the agent store's own
    state, the log of calls issued over the bridge and the console. *)

From Stdlib Require Import String List Bool.
From stdpp Require Import base option list strings.

Local Open Scope string_scope.
Local Open Scope list_scope.

(** ** platformUtils.ts *)

Definition getRevealLabel (platform : string) : string :=
  if String.eqb platform "win32" then "Reveal in Explorer"
  else if String.eqb platform "linux" then "Reveal in File Manager"
  else "Reveal in Finder".

(** ** Data of the session store, as far as agentStore.ts touches it

    The declarations of [../types] are string-literal unions and object
    types; a string-literal union is kept as the string it is at run time,
    an optional property as an [option]. *)

(** [AgentError]: the error descriptor, [{ type, message }]. *)
Module AgentError.
Record t := mk { type : string; message : string }.
End AgentError.

(** [AITab]: one AI tab of a session. *)
Module AITab.
Record t := mk {
  id : string;
  agentSessionId : option string;
  name : option string;
  starred : bool;
  inputValue : string;
  state : string;
  agentError : option AgentError.t;
  saveToHistory : option bool;
  showThinking : option string
}.
End AITab.

(** [Session]: a session record of sessionStore. *)
Module Session.
Record t := mk {
  id : string;
  name : string;
  toolType : string;
  state : string;
  inputMode : string;
  agentError : option AgentError.t;
  agentErrorTabId : option string;
  agentErrorPaused : option bool;
  aiTabs : list AITab.t;
  activeTabId : string
}.
End Session.

(** [AgentConfig]: a detected agent descriptor. *)
Module AgentConfig.
Record t := mk {
  id : string;
  name : string;
  available : bool;
  command : string
}.
End AgentConfig.

(** Options and result of [createTab] (from [../utils/tabHelpers]). *)
Record CreateTabOptions := {
  opt_saveToHistory : option bool;
  opt_showThinking : option string
}.

Record CreateTabResult := {
  res_session : Session.t;
  res_tab : AITab.t
}.

(** ** The IPC bridge [window.maestro]

    Every bridge function returns a promise; the promise settles as
    fulfilled with a value or rejected with a reason. *)

Inductive Settled (A : Type) : Type :=
| Fulfilled (a : A)
| Rejected (reason : string).
Arguments Fulfilled {A} a.
Arguments Rejected {A} reason.

Record Bridge := {
  detect : option string -> Settled (list AgentConfig.t);
  kill : string -> Settled bool;
  interrupt : string -> Settled bool;
  clearError : string -> Settled unit
}.

(** A call over the bridge, as the bridge sees it. *)
Inductive IpcCall : Type :=
| AgentsDetect (sshRemoteId : option string)
| ProcessKill (target : string)
| ProcessInterrupt (sessionId : string)
| AgentErrorClear (sessionId : string).

(** An issued call, with whether its call site awaits the promise
    ([await f(x)]) or lets it go with a handler attached
    ([f(x).catch(h)]). *)
Record IpcEvent := {
  call : IpcCall;
  awaited : bool
}.

(** ** The world the actions run in *)

Record World := {
  sessions : list Session.t;
  activeSessionId : string;
  availableAgents : list AgentConfig.t;
  agentsDetected : bool;
  ipc : list IpcEvent;
  console : list (string * string)
}.

Definition with_sessions (l : list Session.t) (w : World) : World :=
  {| sessions := l; activeSessionId := activeSessionId w;
     availableAgents := availableAgents w; agentsDetected := agentsDetected w;
     ipc := ipc w; console := console w |}.

Definition with_activeSessionId (a : string) (w : World) : World :=
  {| sessions := sessions w; activeSessionId := a;
     availableAgents := availableAgents w; agentsDetected := agentsDetected w;
     ipc := ipc w; console := console w |}.

Definition with_agents (l : list AgentConfig.t) (d : bool) (w : World) : World :=
  {| sessions := sessions w; activeSessionId := activeSessionId w;
     availableAgents := l; agentsDetected := d;
     ipc := ipc w; console := console w |}.

Definition with_ipc (l : list IpcEvent) (w : World) : World :=
  {| sessions := sessions w; activeSessionId := activeSessionId w;
     availableAgents := availableAgents w; agentsDetected := agentsDetected w;
     ipc := l; console := console w |}.

Definition with_console (l : list (string * string)) (w : World) : World :=
  {| sessions := sessions w; activeSessionId := activeSessionId w;
     availableAgents := availableAgents w; agentsDetected := agentsDetected w;
     ipc := ipc w; console := l |}.

(** ** The monad: state passing with exceptions

    A synchronous function returns or throws; an async function's promise
    fulfils or rejects. Both are a [Completion]. *)

Inductive Completion (A : Type) : Type :=
| Returned (a : A)
| Thrown (e : string).
Arguments Returned {A} a.
Arguments Thrown {A} e.

Definition M (A : Type) : Type := World -> Completion A * World.

Definition ret {A} (a : A) : M A := fun w => (Returned a, w).

Definition bind {A B} (m : M A) (k : A -> M B) : M B :=
  fun w =>
    match m w with
    | (Returned a, w') => k a w'
    | (Thrown e, w') => (Thrown e, w')
    end.

Definition gets {A} (f : World -> A) : M A := fun w => (Returned (f w), w).

Definition modify (f : World -> World) : M unit := fun w => (Returned tt, f w).

(** [try { m } catch { h }] *)
Definition try_catch {A} (m : M A) (h : string -> M A) : M A :=
  fun w =>
    match m w with
    | (Returned a, w') => (Returned a, w')
    | (Thrown e, w') => h e w'
    end.

(** The monad's operations under stdpp's notations [x ← m; k] and
    [m;; k]. *)
#[global] Instance M_ret : MRet M := @ret.
#[global] Instance M_bind : MBind M := fun A B k m => bind m k.

Definition log_call (c : IpcCall) (aw : bool) : M unit :=
  modify (fun w => with_ipc (ipc w ++ [{| call := c; awaited := aw |}]) w).

(** [await f(x)]: the call is issued, the caller is suspended until the
    promise settles, and a rejection is thrown at the [await]. *)
Definition await {A} (c : IpcCall) (r : Settled A) : M A :=
  log_call c true;;
  (fun w => match r with
            | Fulfilled a => (Returned a, w)
            | Rejected e => (Thrown e, w)
            end).

(** [f(x).catch(h)]: the call is issued and not awaited; a rejection runs
    the handler [h] and goes no further. *)
Definition fire_catch {A} (c : IpcCall) (r : Settled A) (h : string -> M unit)
  : M unit :=
  log_call c false;;
  match r with
  | Fulfilled _ => mret tt
  | Rejected e => h e
  end.

(** [console.error(msg, err)] *)
Definition console_error (msg err : string) : M unit :=
  modify (fun w => with_console (console w ++ [(msg, err)]) w).

(** JavaScript truthiness of a string: every string but the empty one. *)
Definition truthy (s : string) : bool := negb (String.eqb s "").

(** ** sessionStore, as agentStore.ts uses it *)

(** Modelled from the spec: [useSessionStore.getState().setSessions], of
    [./sessionStore], "an update-all function taking a transform over the
    full collection": the collection becomes the transform of the previous
    one. *)
Definition setSessions (f : list Session.t -> list Session.t) : M unit :=
  modify (fun w => with_sessions (f (sessions w)) w).

(** Modelled from the spec: [useSessionStore.getState().setActiveSessionId],
    of [./sessionStore]: the store's active session id becomes the given
    one. *)
Definition setActiveSessionId (sessionId : string) : M unit :=
  modify (with_activeSessionId sessionId).

(** ** agentStore.ts: helpers *)

Definition getSession (sessionId : string) : M (option Session.t) :=
  gets (fun w => find (fun s => String.eqb (Session.id s) sessionId) (sessions w)).

(** The transform that [updateSession] hands to [setSessions]:
    [prev.map((s) => (s.id === sessionId ? updater(s) : s))]. *)
Definition update_in (sessionId : string) (updater : Session.t -> Session.t)
    (prev : list Session.t) : list Session.t :=
  (fun s => if String.eqb (Session.id s) sessionId then updater s else s) <$> prev.

Definition updateSession (sessionId : string) (updater : Session.t -> Session.t)
  : M unit :=
  setSessions (update_in sessionId updater).

(** [{ ...tab, agentError: undefined }] *)
Definition tab_without_error (tab : AITab.t) : AITab.t :=
  {| AITab.id := AITab.id tab;
     AITab.agentSessionId := AITab.agentSessionId tab;
     AITab.name := AITab.name tab;
     AITab.starred := AITab.starred tab;
     AITab.inputValue := AITab.inputValue tab;
     AITab.state := AITab.state tab;
     AITab.agentError := None;
     AITab.saveToHistory := AITab.saveToHistory tab;
     AITab.showThinking := AITab.showThinking tab |}.

(** The updater that [clearAgentError] hands to [updateSession]. *)
Definition clearAgentError_updater (tabId : option string) (s : Session.t)
  : Session.t :=
  let targetTabId :=
    match tabId with
    | Some t => Some t
    | None => Session.agentErrorTabId s
    end in
  let updatedAiTabs :=
    match targetTabId with
    | Some t =>
        if truthy t
        then (fun tab => if String.eqb (AITab.id tab) t
                         then tab_without_error tab else tab)
               <$> Session.aiTabs s
        else Session.aiTabs s
    | None => Session.aiTabs s
    end in
  {| Session.id := Session.id s;
     Session.name := Session.name s;
     Session.toolType := Session.toolType s;
     Session.state := "idle";
     Session.inputMode := Session.inputMode s;
     Session.agentError := None;
     Session.agentErrorTabId := None;
     Session.agentErrorPaused := Some false;
     Session.aiTabs := updatedAiTabs;
     Session.activeTabId := Session.activeTabId s |}.

(** [{ ...s, inputMode: 'terminal' }] *)
Definition terminal_mode (s : Session.t) : Session.t :=
  {| Session.id := Session.id s;
     Session.name := Session.name s;
     Session.toolType := Session.toolType s;
     Session.state := Session.state s;
     Session.inputMode := "terminal";
     Session.agentError := Session.agentError s;
     Session.agentErrorTabId := Session.agentErrorTabId s;
     Session.agentErrorPaused := Session.agentErrorPaused s;
     Session.aiTabs := Session.aiTabs s;
     Session.activeTabId := Session.activeTabId s |}.

(** ** agentStore.ts: the store's actions

    [maestro] is the bridge [window.maestro]; [createTab] is the helper of
    [../utils/tabHelpers], which returns a new session and tab, or null. *)

Section Store.

Variable maestro : Bridge.
Variable createTab : Session.t -> CreateTabOptions -> option CreateTabResult.

Definition refreshAgents (sshRemoteId : option string) : M unit :=
  agents ← await (AgentsDetect sshRemoteId) (detect maestro sshRemoteId);
  modify (with_agents agents true).

Definition getAgentConfig (agentId : string) : M (option AgentConfig.t) :=
  gets (fun w =>
    find (fun a => String.eqb (AgentConfig.id a) agentId) (availableAgents w)).

Definition clearAgentError (sessionId : string) (tabId : option string) : M unit :=
  updateSession sessionId (clearAgentError_updater tabId);;
  fire_catch (AgentErrorClear sessionId) (clearError maestro sessionId)
    (fun err => console_error "Failed to clear agent error:" err).

Definition startNewSessionAfterError (sessionId : string)
    (options : option CreateTabOptions) : M unit :=
  session ← getSession sessionId;
  match session with
  | None => mret tt
  | Some _ =>
      clearAgentError sessionId None;;
      updateSession sessionId (fun s =>
        let result :=
          createTab s
            {| opt_saveToHistory := options ≫= opt_saveToHistory;
               opt_showThinking := options ≫= opt_showThinking |} in
        match result with
        | None => s
        | Some r => res_session r
        end)
  end.

Definition retryAfterError (sessionId : string) : M unit :=
  clearAgentError sessionId None.

Definition restartAgentAfterError (sessionId : string) : M unit :=
  session ← getSession sessionId;
  match session with
  | None => mret tt
  | Some _ =>
      clearAgentError sessionId None;;
      try_catch
        (await (ProcessKill (sessionId +:+ "-ai"))
               (kill maestro (sessionId +:+ "-ai"));; mret tt)
        (fun _ => mret tt)
  end.

Definition authenticateAfterError (sessionId : string) : M unit :=
  session ← getSession sessionId;
  match session with
  | None => mret tt
  | Some _ =>
      clearAgentError sessionId None;;
      setActiveSessionId sessionId;;
      updateSession sessionId terminal_mode
  end.

Definition killAgent (sessionId : string) (suffix : option string) : M unit :=
  let target :=
    match suffix with
    | Some sfx =>
        if truthy sfx then sessionId +:+ "-" +:+ sfx else sessionId +:+ "-ai"
    | None => sessionId +:+ "-ai"
    end in
  try_catch
    (await (ProcessKill target) (kill maestro target);; mret tt)
    (fun _ => mret tt).

Definition interruptAgent (sessionId : string) : M unit :=
  try_catch
    (await (ProcessInterrupt sessionId) (interrupt maestro sessionId);; mret tt)
    (fun _ => mret tt).

End Store.

(** ** agentStore.ts: selectors

    The agent store's own state is the [availableAgents] and
    [agentsDetected] part of the world. *)

Definition selectAvailableAgents (state : World) : list AgentConfig.t :=
  availableAgents state.

Definition selectAgentsDetected (state : World) : bool :=
  agentsDetected state.

(** ** Actions as data, and running them *)

(** The actions of the store ([AgentStoreActions]). *)
Inductive Action : Type :=
| RefreshAgents (sshRemoteId : option string)
| GetAgentConfig (agentId : string)
| ClearAgentError (sessionId : string) (tabId : option string)
| StartNewSessionAfterError (sessionId : string) (options : option CreateTabOptions)
| RetryAfterError (sessionId : string)
| RestartAgentAfterError (sessionId : string)
| AuthenticateAfterError (sessionId : string)
| KillAgent (sessionId : string) (suffix : option string)
| InterruptAgent (sessionId : string).

Definition perform (maestro : Bridge)
    (createTab : Session.t -> CreateTabOptions -> option CreateTabResult)
    (a : Action) : M unit :=
  match a with
  | RefreshAgents sshRemoteId => refreshAgents maestro sshRemoteId
  | GetAgentConfig agentId => getAgentConfig agentId;; mret tt
  | ClearAgentError sessionId tabId => clearAgentError maestro sessionId tabId
  | StartNewSessionAfterError sessionId options =>
      startNewSessionAfterError maestro createTab sessionId options
  | RetryAfterError sessionId => retryAfterError maestro sessionId
  | RestartAgentAfterError sessionId => restartAgentAfterError maestro sessionId
  | AuthenticateAfterError sessionId => authenticateAfterError maestro sessionId
  | KillAgent sessionId suffix => killAgent maestro sessionId suffix
  | InterruptAgent sessionId => interruptAgent maestro sessionId
  end.

(** The session id an action is given, for the actions that take one. *)
Definition target_session (a : Action) : option string :=
  match a with
  | RefreshAgents _ | GetAgentConfig _ => None
  | ClearAgentError sessionId _
  | StartNewSessionAfterError sessionId _
  | RetryAfterError sessionId
  | RestartAgentAfterError sessionId
  | AuthenticateAfterError sessionId
  | KillAgent sessionId _
  | InterruptAgent sessionId => Some sessionId
  end.

(** The world after a computation, and how the computation completed. *)
Definition exec {A} (m : M A) (w : World) : World := snd (m w).
Definition outcome {A} (m : M A) (w : World) : Completion A := fst (m w).

(** The calls issued over the bridge between world [w] and world [w']. *)
Definition issued (w w' : World) : list IpcEvent :=
  drop (length (ipc w)) (ipc w').

(** A session with the given id is in the collection. *)
Definition has_session (sessionId : string) (w : World) : bool :=
  existsb (fun s => String.eqb (Session.id s) sessionId) (sessions w).


(** ** The properties under test, as predicates on one run *)

(** The run changed neither the collection nor the call log. *)
Definition is_noop (m : M unit) (w : World) : Prop :=
  sessions (exec m w) = sessions w /\ issued w (exec m w) = [].

(** The run completed normally: it returned, its promise fulfilled. *)
Definition completes_normally (m : M unit) (w : World) : Prop :=
  outcome m w = Returned tt.

(** The run issued at most one call, and awaited what it issued. *)
Definition one_call_awaited (m : M unit) (w : World) : Prop :=
  length (issued w (exec m w)) <= 1 /\
  Forall (fun e => awaited e = true) (issued w (exec m w)).


(** ** Concrete data for the examples *)

Definition tab1 : AITab.t :=
  {| AITab.id := "tab-1"; AITab.agentSessionId := None; AITab.name := None;
     AITab.starred := false; AITab.inputValue := ""; AITab.state := "idle";
     AITab.agentError :=
       Some {| AgentError.type := "auth_expired"; AgentError.message := "expired" |};
     AITab.saveToHistory := None; AITab.showThinking := None |}.

Definition session1 : Session.t :=
  {| Session.id := "session-1"; Session.name := "Test Session";
     Session.toolType := "claude-code"; Session.state := "error";
     Session.inputMode := "ai";
     Session.agentError :=
       Some {| AgentError.type := "agent_crashed"; AgentError.message := "crash" |};
     Session.agentErrorTabId := Some "tab-1";
     Session.agentErrorPaused := Some true;
     Session.aiTabs := [tab1]; Session.activeTabId := "tab-1" |}.

Definition session2 : Session.t :=
  {| Session.id := "session-2"; Session.name := "Test Session";
     Session.toolType := "claude-code"; Session.state := "busy";
     Session.inputMode := "ai"; Session.agentError := None;
     Session.agentErrorTabId := None; Session.agentErrorPaused := None;
     Session.aiTabs := []; Session.activeTabId := "default-tab" |}.

Definition world_of (l : list Session.t) : World :=
  {| sessions := l; activeSessionId := ""; availableAgents := [];
     agentsDetected := false; ipc := []; console := [] |}.

(** A bridge on which every call succeeds, and one on which every call
    fails. *)
Definition bridge_ok : Bridge :=
  {| detect := fun _ => Fulfilled [];
     kill := fun _ => Fulfilled true;
     interrupt := fun _ => Fulfilled true;
     clearError := fun _ => Fulfilled tt |}.

Definition bridge_failing : Bridge :=
  {| detect := fun _ => Rejected "detect failed";
     kill := fun _ => Rejected "Process not found";
     interrupt := fun _ => Rejected "Process not found";
     clearError := fun _ => Rejected "clear failed" |}.

(** Two detected agents, and a bridge that detects them. *)
Definition agent_codex : AgentConfig.t :=
  {| AgentConfig.id := "codex"; AgentConfig.name := "Codex";
     AgentConfig.available := true; AgentConfig.command := "codex" |}.

Definition agent_claude : AgentConfig.t :=
  {| AgentConfig.id := "claude-code"; AgentConfig.name := "Claude Code";
     AgentConfig.available := true; AgentConfig.command := "claude" |}.

Definition bridge_two_agents : Bridge :=
  {| detect := fun _ => Fulfilled [agent_claude; agent_codex];
     kill := fun _ => Fulfilled true;
     interrupt := fun _ => Fulfilled true;
     clearError := fun _ => Fulfilled tt |}.

(** A [createTab] that appends a fresh tab and makes it the active one. *)
Definition new_tab (o : CreateTabOptions) : AITab.t :=
  {| AITab.id := "new-tab"; AITab.agentSessionId := None; AITab.name := None;
     AITab.starred := false; AITab.inputValue := ""; AITab.state := "idle";
     AITab.agentError := None;
     AITab.saveToHistory := opt_saveToHistory o;
     AITab.showThinking := opt_showThinking o |}.

Definition createTab_append (s : Session.t) (o : CreateTabOptions)
  : option CreateTabResult :=
  Some {| res_session :=
            {| Session.id := Session.id s; Session.name := Session.name s;
               Session.toolType := Session.toolType s;
               Session.state := Session.state s;
               Session.inputMode := Session.inputMode s;
               Session.agentError := Session.agentError s;
               Session.agentErrorTabId := Session.agentErrorTabId s;
               Session.agentErrorPaused := Session.agentErrorPaused s;
               Session.aiTabs := Session.aiTabs s ++ [new_tab o];
               Session.activeTabId := "new-tab" |};
          res_tab := new_tab o |}.


(** * Proofs *)

(** ** Running the monad by hand *)

Ltac unfold_monad :=
  unfold exec, outcome, await, fire_catch, try_catch, log_call, console_error,
    setSessions, setActiveSessionId, getSession, updateSession,
    gets, modify, mbind, M_bind, bind, mret, M_ret, ret in *.

Ltac unfold_store :=
  unfold perform, refreshAgents, getAgentConfig, startNewSessionAfterError,
    retryAfterError, restartAgentAfterError, authenticateAfterError,
    killAgent, interruptAgent, clearAgentError in *;
  unfold_monad.

(** Case analysis on the first settled promise or lookup the goal is stuck
    on. *)
Ltac step_run :=
  match goal with
  | |- context [match ?r with Fulfilled _ => _ | Rejected _ => _ end] =>
      destruct r eqn:?
  | |- context [match find ?p ?l with Some _ => _ | None => _ end] =>
      destruct (find p l) eqn:?
  end; simpl.

(** ** The call log only grows *)

Lemma issued_app (w w' : World) (evs : list IpcEvent) :
  ipc w' = ipc w ++ evs -> issued w w' = evs.
Proof.
  intros E. unfold issued. rewrite E. apply drop_app_length.
Qed.

(** ** [updateSession] on the collection *)

Lemma update_in_lookup sessionId updater (prev : list Session.t) (i : nat) :
  update_in sessionId updater prev !! i =
  (fun s => if String.eqb (Session.id s) sessionId then updater s else s)
    <$> prev !! i.
Proof. unfold update_in. apply list_lookup_fmap. Qed.

Lemma update_in_missing sessionId updater (prev : list Session.t) :
  find (fun s => String.eqb (Session.id s) sessionId) prev = None ->
  update_in sessionId updater prev = prev.
Proof.
  unfold update_in.
  induction prev as [|s prev IH]; simpl; [reflexivity|].
  destruct (String.eqb (Session.id s) sessionId) eqn:E; [discriminate|].
  intros H. f_equal. exact (IH H).
Qed.


Lemma clearAgentError_updater_id tabId s :
  Session.id (clearAgentError_updater tabId s) = Session.id s.
Proof. reflexivity. Qed.

(** ** What [clearAgentError] leaves behind *)

Lemma clearAgentError_sessions maestro sessionId tabId w :
  sessions (exec (clearAgentError maestro sessionId tabId) w) =
  update_in sessionId (clearAgentError_updater tabId) (sessions w).
Proof.
  unfold_store. simpl. destruct (clearError maestro sessionId); reflexivity.
Qed.

Lemma clearAgentError_ipc maestro sessionId tabId w :
  ipc (exec (clearAgentError maestro sessionId tabId) w) =
  ipc w ++ [{| call := AgentErrorClear sessionId; awaited := false |}].
Proof.
  unfold_store. simpl. destruct (clearError maestro sessionId); reflexivity.
Qed.

Lemma clearAgentError_outcome maestro sessionId tabId w :
  outcome (clearAgentError maestro sessionId tabId) w = Returned tt.
Proof.
  unfold_store. simpl. destruct (clearError maestro sessionId); reflexivity.
Qed.

(** ** The tests of agentStore.test.ts, replayed on the model *)

Example test_clears_session_level_error_fields :
  sessions (exec (clearAgentError bridge_ok "session-1" None) (world_of [session1]))
  = [ {| Session.id := "session-1"; Session.name := "Test Session";
         Session.toolType := "claude-code"; Session.state := "idle";
         Session.inputMode := "ai"; Session.agentError := None;
         Session.agentErrorTabId := None;
         Session.agentErrorPaused := Some false;
         Session.aiTabs := [tab_without_error tab1];
         Session.activeTabId := "tab-1" |} ].
Proof. reflexivity. Qed.

Example test_calls_clearError_ipc :
  ipc (exec (clearAgentError bridge_ok "session-1" None) (world_of [session1]))
  = [ {| call := AgentErrorClear "session-1"; awaited := false |} ].
Proof. reflexivity. Qed.

Example test_restart_kills_the_ai_process :
  ipc (exec (restartAgentAfterError bridge_ok "session-1") (world_of [session1]))
  = [ {| call := AgentErrorClear "session-1"; awaited := false |};
      {| call := ProcessKill "session-1-ai"; awaited := true |} ].
Proof. reflexivity. Qed.

Example test_restart_does_nothing_if_session_not_found :
  restartAgentAfterError bridge_ok "nonexistent" (world_of [])
  = (Returned tt, world_of []).
Proof. reflexivity. Qed.

Example test_kills_agent_with_default_suffix :
  ipc (exec (killAgent bridge_ok "session-1" None) (world_of []))
  = [ {| call := ProcessKill "session-1-ai"; awaited := true |} ].
Proof. reflexivity. Qed.

Example test_kills_agent_with_custom_suffix :
  ipc (exec (killAgent bridge_ok "session-1" (Some "terminal")) (world_of []))
  = [ {| call := ProcessKill "session-1-terminal"; awaited := true |} ].
Proof. reflexivity. Qed.

Example test_authenticate_switches_to_terminal :
  let w := exec (authenticateAfterError bridge_ok "session-2")
                (world_of [session1; session2]) in
  activeSessionId w = "session-2" /\
  Session.inputMode <$> sessions w = ["ai"; "terminal"].
Proof. split; reflexivity. Qed.

Example test_start_new_session_creates_a_tab :
  (fun s => length (Session.aiTabs s)) <$>
    sessions (exec (startNewSessionAfterError bridge_ok createTab_append
                      "session-1" None) (world_of [session1]))
  = [2].
Proof. reflexivity. Qed.

(** ** platformUtils *)

(** C9: [getRevealLabel] is a total function of the platform string alone:
    it returns 'Reveal in Explorer' exactly on 'win32', 'Reveal in File
    Manager' exactly on 'linux', and 'Reveal in Finder' on every other
    string. Being a function of its argument only, equal inputs give equal
    outputs. *)
Theorem getRevealLabel_three_way (platform : string) :
  (platform = "win32" /\ getRevealLabel platform = "Reveal in Explorer") \/
  (platform = "linux" /\ getRevealLabel platform = "Reveal in File Manager") \/
  (platform <> "win32" /\ platform <> "linux" /\
   getRevealLabel platform = "Reveal in Finder").
Proof.
  unfold getRevealLabel.
  destruct (String.eqb_spec platform "win32") as [Hw|Hw]; [left; auto|].
  destruct (String.eqb_spec platform "linux") as [Hl|Hl]; [right; left; auto|].
  right; right; auto.
Qed.

(** ** clearAgentError *)

(** C1: whatever error a session carries, [clearAgentError] on its id leaves
    it in state 'idle', with no error descriptor, no offending-tab reference
    and the paused flag false. *)
Theorem clearAgentError_resets_session maestro (sessionId : string)
    (tabId : option string) (w : World) (i : nat) (s : Session.t) :
  sessions w !! i = Some s ->
  Session.id s = sessionId ->
  exists s',
    sessions (exec (clearAgentError maestro sessionId tabId) w) !! i = Some s' /\
    Session.id s' = sessionId /\
    Session.state s' = "idle" /\
    Session.agentError s' = None /\
    Session.agentErrorTabId s' = None /\
    Session.agentErrorPaused s' = Some false.
Proof.
  intros Hi Hid.
  exists (clearAgentError_updater tabId s).
  rewrite clearAgentError_sessions, update_in_lookup, Hi. simpl.
  rewrite <- Hid, String.eqb_refl. repeat split.
Qed.

Lemma clearAgentError_resets_session_witness :
  sessions (world_of [session1; session2]) !! 0 = Some session1 /\
  Session.id session1 = "session-1" /\
  exists s',
    sessions (exec (clearAgentError bridge_failing "session-1" None)
                (world_of [session1; session2])) !! 0 = Some s' /\
    Session.id s' = "session-1" /\
    Session.state s' = "idle" /\
    Session.agentError s' = None /\
    Session.agentErrorTabId s' = None /\
    Session.agentErrorPaused s' = Some false.
Proof.
  split; [reflexivity|]. split; [reflexivity|].
  apply (clearAgentError_resets_session bridge_failing "session-1" None
           (world_of [session1; session2]) 0 session1); reflexivity.
Defined.

(** C5: [clearAgentError] leaves every session whose id differs from the
    target as it was, field for field. *)
Theorem clearAgentError_frame maestro (sessionId : string)
    (tabId : option string) (w : World) (i : nat) (s : Session.t) :
  sessions w !! i = Some s ->
  Session.id s <> sessionId ->
  sessions (exec (clearAgentError maestro sessionId tabId) w) !! i = Some s.
Proof.
  intros Hi Hne.
  rewrite clearAgentError_sessions, update_in_lookup, Hi. simpl.
  destruct (String.eqb_spec (Session.id s) sessionId); [contradiction|reflexivity].
Qed.

Lemma clearAgentError_frame_witness :
  sessions (world_of [session1; session2]) !! 1 = Some session2 /\
  Session.id session2 <> "session-1" /\
  sessions (exec (clearAgentError bridge_ok "session-1" (Some "tab-1"))
              (world_of [session1; session2])) !! 1 = Some session2.
Proof.
  split; [reflexivity|]. split; [discriminate|].
  apply (clearAgentError_frame bridge_ok "session-1" (Some "tab-1")
           (world_of [session1; session2]) 1 session2);
    [reflexivity | discriminate].
Defined.

(** ** killAgent and interruptAgent *)

Lemma killAgent_run maestro sessionId suffix w :
  killAgent maestro sessionId suffix w =
  (Returned tt,
   with_ipc (ipc w ++
     [{| call := ProcessKill
           match suffix with
           | Some sfx => if truthy sfx then sessionId +:+ "-" +:+ sfx
                         else sessionId +:+ "-ai"
           | None => sessionId +:+ "-ai"
           end;
         awaited := true |}]) w).
Proof.
  unfold_store. simpl. step_run; reflexivity.
Qed.

Lemma interruptAgent_run maestro sessionId w :
  interruptAgent maestro sessionId w =
  (Returned tt,
   with_ipc (ipc w ++
     [{| call := ProcessInterrupt sessionId; awaited := true |}]) w).
Proof.
  unfold_store. simpl. step_run; reflexivity.
Qed.

Lemma truthy_nonempty (s : string) : s <> "" -> truthy s = true.
Proof.
  intros H. unfold truthy.
  destruct (String.eqb_spec s ""); [contradiction|reflexivity].
Qed.

(** C10: with the empty string as suffix, [killAgent] targets
    [sessionId + "-ai"], the target it has with no suffix at all. *)
Theorem killAgent_empty_suffix maestro (sessionId : string) (w : World) :
  issued w (exec (killAgent maestro sessionId (Some "")) w) =
    [{| call := ProcessKill (sessionId +:+ "-ai"); awaited := true |}] /\
  exec (killAgent maestro sessionId (Some "")) w =
    exec (killAgent maestro sessionId None) w.
Proof.
  unfold exec. rewrite !killAgent_run. simpl. split; [|reflexivity].
  apply issued_app. reflexivity.
Qed.

(** C4, as the code has it: with no suffix [killAgent] issues a kill call
    on [sessionId + "-ai"], and with a non-empty suffix a kill call on
    [sessionId + "-" + suffix]. *)
Theorem killAgent_target maestro (sessionId suffix : string) (w : World) :
  issued w (exec (killAgent maestro sessionId None) w) =
    [{| call := ProcessKill (sessionId +:+ "-ai"); awaited := true |}] /\
  (suffix <> "" ->
   issued w (exec (killAgent maestro sessionId (Some suffix)) w) =
     [{| call := ProcessKill (sessionId +:+ "-" +:+ suffix); awaited := true |}]).
Proof.
  unfold exec. rewrite !killAgent_run. simpl. split.
  - apply issued_app. reflexivity.
  - intros Hne. rewrite (truthy_nonempty _ Hne). apply issued_app. reflexivity.
Qed.

Lemma killAgent_target_witness :
  "terminal" <> "" /\
  issued (world_of [])
    (exec (killAgent bridge_ok "session-1" (Some "terminal")) (world_of [])) =
  [{| call := ProcessKill "session-1-terminal"; awaited := true |}].
Proof.
  split; [discriminate|].
  apply (proj2 (killAgent_target bridge_ok "session-1" "terminal" (world_of [])));
    discriminate.
Defined.

(** C4, as the claim has it, fails on the empty suffix: the claim's target
    is [sessionId + "-"], the call goes to [sessionId + "-ai"]. *)
Lemma killAgent_empty_suffix_not_dash :
  issued (world_of [])
    (exec (killAgent bridge_ok "session-1" (Some "")) (world_of [])) =
    [{| call := ProcessKill "session-1-ai"; awaited := true |}] /\
  issued (world_of [])
    (exec (killAgent bridge_ok "session-1" (Some "")) (world_of [])) <>
    [{| call := ProcessKill ("session-1" +:+ "-" +:+ ""); awaited := true |}].
Proof.
  split; [reflexivity|]. vm_compute. discriminate.
Qed.

(** ** Failures of the bridge *)

Lemma restartAgentAfterError_outcome maestro sessionId w :
  outcome (restartAgentAfterError maestro sessionId) w = Returned tt.
Proof.
  unfold_store. simpl. repeat (step_run; try reflexivity).
Qed.

(** C6: whatever the bridge answers to a kill or an interrupt call, and so
    also when the call fails, [killAgent], [interruptAgent] and
    [restartAgentAfterError] complete normally. *)
Theorem kill_interrupt_failure_contained maestro (sessionId : string)
    (suffix : option string) (w : World) :
  completes_normally (killAgent maestro sessionId suffix) w /\
  completes_normally (interruptAgent maestro sessionId) w /\
  completes_normally (restartAgentAfterError maestro sessionId) w.
Proof.
  unfold completes_normally. repeat split.
  - unfold outcome. rewrite killAgent_run. reflexivity.
  - unfold outcome. rewrite interruptAgent_run. reflexivity.
  - apply restartAgentAfterError_outcome.
Qed.

Example kill_failure_contained_on_failing_bridge :
  kill bridge_failing "session-1-ai" = Rejected "Process not found" /\
  outcome (killAgent bridge_failing "session-1" None) (world_of [session1])
    = Returned tt /\
  outcome (restartAgentAfterError bridge_failing "session-1") (world_of [session1])
    = Returned tt /\
  outcome (interruptAgent bridge_failing "session-1") (world_of [session1])
    = Returned tt.
Proof. repeat split. Qed.

(** C3, as the claim has it, fails on [refreshAgents]: a rejected detect
    call is thrown at the [await] and nothing catches it. *)
Lemma refreshAgents_surfaces_detect_failure :
  detect bridge_failing None = Rejected "detect failed" /\
  outcome (perform bridge_failing createTab_append (RefreshAgents None))
    (world_of []) = Thrown "detect failed" /\
  ~ completes_normally
      (perform bridge_failing createTab_append (RefreshAgents None))
      (world_of []).
Proof.
  split; [reflexivity|]. split; [reflexivity|].
  unfold completes_normally. vm_compute. discriminate.
Qed.

(** C3, as the code has it: a failure of a kill, an interrupt or an
    error-acknowledgment call is caught where the call is made, and every
    action but [refreshAgents] completes normally; [refreshAgents] completes
    normally when the detect call succeeds and surfaces the failure of the
    detect call to its caller when it fails. *)
Theorem failures_caught_except_detect maestro createTab (a : Action) (w : World) :
  outcome (perform maestro createTab a) w =
  match a with
  | RefreshAgents sshRemoteId =>
      match detect maestro sshRemoteId with
      | Fulfilled _ => Returned tt
      | Rejected e => Thrown e
      end
  | _ => Returned tt
  end.
Proof.
  destruct a; unfold_store; simpl; repeat (step_run; try reflexivity);
    reflexivity.
Qed.

(** ** Acting on a session id that is not in the collection *)

Lemma find_none_has_session sessionId w :
  find (fun s => String.eqb (Session.id s) sessionId) (sessions w) = None <->
  has_session sessionId w = false.
Proof.
  unfold has_session. induction (sessions w) as [|s l IH]; simpl; [tauto|].
  destruct (String.eqb (Session.id s) sessionId); simpl; [|exact IH].
  split; discriminate.
Qed.

(** C2, as the claim has it, fails on [clearAgentError]: on an id that
    matches no session the collection is unchanged, but the
    error-acknowledgment call is issued all the same. *)
Lemma clearAgentError_missing_session_calls_bridge :
  has_session "nonexistent" (world_of []) = false /\
  issued (world_of [])
    (exec (perform bridge_ok createTab_append (ClearAgentError "nonexistent" None))
       (world_of [])) =
    [{| call := AgentErrorClear "nonexistent"; awaited := false |}] /\
  ~ is_noop (perform bridge_ok createTab_append (ClearAgentError "nonexistent" None))
      (world_of []).
Proof.
  split; [reflexivity|]. split; [reflexivity|].
  intros [_ H]. vm_compute in H. discriminate.
Qed.

(** C2, as the code has it: on a session id that matches no session, every
    action leaves the collection unchanged; [startNewSessionAfterError],
    [restartAgentAfterError] and [authenticateAfterError] return at their
    guard, change nothing and issue no call; [clearAgentError] and
    [retryAfterError] still issue the error-acknowledgment call,
    [killAgent] the kill call and [interruptAgent] the interrupt call. *)
Theorem missing_session_effects maestro createTab (a : Action)
    (sessionId : string) (w : World) :
  target_session a = Some sessionId ->
  has_session sessionId w = false ->
  sessions (exec (perform maestro createTab a) w) = sessions w /\
  match a with
  | StartNewSessionAfterError _ _
  | RestartAgentAfterError _
  | AuthenticateAfterError _ =>
      perform maestro createTab a w = (Returned tt, w)
  | ClearAgentError _ _
  | RetryAfterError _ =>
      issued w (exec (perform maestro createTab a) w) =
        [{| call := AgentErrorClear sessionId; awaited := false |}]
  | KillAgent _ suffix =>
      issued w (exec (perform maestro createTab a) w) =
        [{| call := ProcessKill
              (match suffix with
               | Some sfx => if truthy sfx then sessionId +:+ "-" +:+ sfx
                             else sessionId +:+ "-ai"
               | None => sessionId +:+ "-ai"
               end);
            awaited := true |}]
  | InterruptAgent _ =>
      issued w (exec (perform maestro createTab a) w) =
        [{| call := ProcessInterrupt sessionId; awaited := true |}]
  | RefreshAgents _ | GetAgentConfig _ => True
  end.
Proof.
  intros Ht Hmiss. apply find_none_has_session in Hmiss.
  destruct a; simpl in Ht; try discriminate; injection Ht as ->; simpl.
  - split.
    + rewrite clearAgentError_sessions. apply update_in_missing, Hmiss.
    + apply issued_app, clearAgentError_ipc.
  - unfold_store. simpl. rewrite Hmiss. split; reflexivity.
  - unfold retryAfterError. split.
    + rewrite clearAgentError_sessions. apply update_in_missing, Hmiss.
    + apply issued_app, clearAgentError_ipc.
  - unfold_store. simpl. rewrite Hmiss. split; reflexivity.
  - unfold_store. simpl. rewrite Hmiss. split; reflexivity.
  - unfold exec. rewrite killAgent_run. simpl. split; [reflexivity|].
    apply issued_app. reflexivity.
  - unfold exec. rewrite interruptAgent_run. simpl. split; [reflexivity|].
    apply issued_app. reflexivity.
Qed.

Lemma missing_session_effects_witness :
  target_session (RestartAgentAfterError "nonexistent") = Some "nonexistent" /\
  has_session "nonexistent" (world_of [session1]) = false /\
  sessions (exec (perform bridge_ok createTab_append
                    (RestartAgentAfterError "nonexistent")) (world_of [session1]))
    = sessions (world_of [session1]) /\
  perform bridge_ok createTab_append (RestartAgentAfterError "nonexistent")
    (world_of [session1]) = (Returned tt, world_of [session1]).
Proof.
  split; [reflexivity|]. split; [reflexivity|].
  apply (missing_session_effects bridge_ok createTab_append
           (RestartAgentAfterError "nonexistent") "nonexistent"
           (world_of [session1])); reflexivity.
Defined.

(** ** How many calls an action issues, and which it awaits *)



Example clearAgentError_does_not_await :
  ~ one_call_awaited
      (perform bridge_ok createTab_append (ClearAgentError "session-1" None))
      (world_of [session1]).
Proof.
  intros [_ H]. vm_compute in H. inversion H as [|? ? Hhd _]. discriminate.
Qed.


(** ** The collection keeps its records *)







(** * Further properties of the store *)

(** ** Shared facts about one run of [clearAgentError] *)

Lemma clearAgentError_at maestro sessionId tabId w (i : nat) (s : Session.t) :
  sessions w !! i = Some s ->
  Session.id s = sessionId ->
  sessions (exec (clearAgentError maestro sessionId tabId) w) !! i =
    Some (clearAgentError_updater tabId s).
Proof.
  intros Hi Hid.
  rewrite clearAgentError_sessions, update_in_lookup, Hi. simpl.
  rewrite <- Hid, String.eqb_refl. reflexivity.
Qed.

Lemma clearAgentError_console maestro sessionId tabId w :
  console (exec (clearAgentError maestro sessionId tabId) w) =
  console w ++
    match clearError maestro sessionId with
    | Fulfilled _ => []
    | Rejected e => [("Failed to clear agent error:", e)]
    end.
Proof.
  unfold_store. simpl. destruct (clearError maestro sessionId); simpl;
    [symmetry; apply app_nil_r | reflexivity].
Qed.

Lemma clearAgentError_rest maestro sessionId tabId w :
  activeSessionId (exec (clearAgentError maestro sessionId tabId) w) = activeSessionId w /\
  availableAgents (exec (clearAgentError maestro sessionId tabId) w) = availableAgents w /\
  agentsDetected (exec (clearAgentError maestro sessionId tabId) w) = agentsDetected w.
Proof.
  unfold_store. simpl. destruct (clearError maestro sessionId); simpl; auto.
Qed.

(** The tabs of the updated session, when a tab is targeted. *)
Lemma updater_tabs_targeted tabId (s : Session.t) (t : string) :
  tabId = Some t \/ (tabId = None /\ Session.agentErrorTabId s = Some t) ->
  t <> "" ->
  Session.aiTabs (clearAgentError_updater tabId s) =
  (fun tab => if String.eqb (AITab.id tab) t then tab_without_error tab else tab)
    <$> Session.aiTabs s.
Proof.
  intros Ht Hne. unfold clearAgentError_updater. simpl.
  destruct Ht as [-> | [-> ->]]; rewrite (truthy_nonempty _ Hne); reflexivity.
Qed.

(** The tabs of the updated session, when no tab is targeted. *)
Lemma updater_tabs_untargeted tabId (s : Session.t) :
  tabId = Some "" \/
  (tabId = None /\
   (Session.agentErrorTabId s = None \/ Session.agentErrorTabId s = Some "")) ->
  Session.aiTabs (clearAgentError_updater tabId s) = Session.aiTabs s.
Proof.
  unfold clearAgentError_updater. simpl.
  intros [-> | [-> [-> | ->]]]; reflexivity.
Qed.

Lemma updater_tab_at tabId (s : Session.t) (j : nat) (tab : AITab.t) :
  Session.aiTabs s !! j = Some tab ->
  exists tab',
    Session.aiTabs (clearAgentError_updater tabId s) !! j = Some tab' /\
    AITab.id tab' = AITab.id tab /\
    (tab' = tab \/ tab' = tab_without_error tab).
Proof.
  intros Hj. unfold clearAgentError_updater. simpl.
  destruct (match tabId with Some t => Some t | None => Session.agentErrorTabId s end)
    as [t|]; [|eauto].
  destruct (truthy t); [|eauto].
  rewrite list_lookup_fmap, Hj. simpl.
  destruct (String.eqb (AITab.id tab) t); eauto.
Qed.

Lemma updater_idempotent tabId (s : Session.t) :
  clearAgentError_updater tabId (clearAgentError_updater tabId s) =
  clearAgentError_updater tabId s.
Proof.
  unfold clearAgentError_updater. simpl.
  destruct tabId as [t|]; [|reflexivity].
  destruct (truthy t); [|reflexivity].
  f_equal. rewrite <- list_fmap_compose. apply list_fmap_ext.
  intros _ tab _. simpl.
  destruct (String.eqb (AITab.id tab) t) eqn:E; simpl; rewrite E; reflexivity.
Qed.

Lemma update_in_twice sessionId updater (prev : list Session.t) :
  (forall s, Session.id (updater s) = Session.id s) ->
  (forall s, updater (updater s) = updater s) ->
  update_in sessionId updater (update_in sessionId updater prev) =
  update_in sessionId updater prev.
Proof.
  intros Hid Hidem. unfold update_in.
  rewrite <- list_fmap_compose. apply list_fmap_ext.
  intros _ s _. simpl.
  destruct (String.eqb (Session.id s) sessionId) eqn:E.
  - rewrite Hid, E. apply Hidem.
  - rewrite E. reflexivity.
Qed.

(** ** clearAgentError: the tabs of the target session *)

(** X1: with a non-empty [tabId], [clearAgentError] removes the error
    descriptor of every tab of the target session that has this id, keeps
    that tab's id, and leaves every tab with another id as it was. *)
Theorem clearAgentError_clears_named_tab maestro (sessionId tabId : string)
    (w : World) (i j : nat) (s : Session.t) (tab : AITab.t) :
  sessions w !! i = Some s ->
  Session.id s = sessionId ->
  tabId <> "" ->
  Session.aiTabs s !! j = Some tab ->
  exists s' tab',
    sessions (exec (clearAgentError maestro sessionId (Some tabId)) w) !! i = Some s' /\
    Session.aiTabs s' !! j = Some tab' /\
    AITab.id tab' = AITab.id tab /\
    (AITab.id tab = tabId -> AITab.agentError tab' = None) /\
    (AITab.id tab <> tabId -> tab' = tab).
Proof.
  intros Hi Hid Hne Hj.
  exists (clearAgentError_updater (Some tabId) s).
  rewrite (clearAgentError_at _ _ _ _ _ _ Hi Hid).
  rewrite (updater_tabs_targeted (Some tabId) s tabId (or_introl eq_refl) Hne).
  rewrite list_lookup_fmap, Hj. simpl.
  destruct (String.eqb_spec (AITab.id tab) tabId) as [E|E];
    eexists; repeat split; auto; contradiction.
Qed.

Lemma clearAgentError_clears_named_tab_witness :
  exists s' tab',
    sessions (exec (clearAgentError bridge_ok "session-1" (Some "tab-1"))
                (world_of [session1])) !! 0 = Some s' /\
    Session.aiTabs s' !! 0 = Some tab' /\
    AITab.id tab' = AITab.id tab1 /\
    (AITab.id tab1 = "tab-1" -> AITab.agentError tab' = None) /\
    (AITab.id tab1 <> "tab-1" -> tab' = tab1).
Proof.
  apply (clearAgentError_clears_named_tab bridge_ok "session-1" "tab-1"
           (world_of [session1]) 0 0 session1 tab1);
    [reflexivity | reflexivity | discriminate | reflexivity].
Defined.

(** X2: with no [tabId], [clearAgentError] falls back on the session's own
    [agentErrorTabId]: when that is a non-empty id, the tabs with this id
    lose their error descriptor and the other tabs are left as they were. *)
Theorem clearAgentError_defaults_to_error_tab maestro (sessionId t : string)
    (w : World) (i j : nat) (s : Session.t) (tab : AITab.t) :
  sessions w !! i = Some s ->
  Session.id s = sessionId ->
  Session.agentErrorTabId s = Some t ->
  t <> "" ->
  Session.aiTabs s !! j = Some tab ->
  exists s' tab',
    sessions (exec (clearAgentError maestro sessionId None) w) !! i = Some s' /\
    Session.aiTabs s' !! j = Some tab' /\
    AITab.id tab' = AITab.id tab /\
    (AITab.id tab = t -> AITab.agentError tab' = None) /\
    (AITab.id tab <> t -> tab' = tab).
Proof.
  intros Hi Hid Href Hne Hj.
  exists (clearAgentError_updater None s).
  rewrite (clearAgentError_at _ _ _ _ _ _ Hi Hid).
  rewrite (updater_tabs_targeted None s t (or_intror (conj eq_refl Href)) Hne).
  rewrite list_lookup_fmap, Hj. simpl.
  destruct (String.eqb_spec (AITab.id tab) t) as [E|E];
    eexists; repeat split; auto; contradiction.
Qed.

Lemma clearAgentError_defaults_to_error_tab_witness :
  exists s' tab',
    sessions (exec (clearAgentError bridge_ok "session-1" None)
                (world_of [session1])) !! 0 = Some s' /\
    Session.aiTabs s' !! 0 = Some tab' /\
    AITab.id tab' = AITab.id tab1 /\
    (AITab.id tab1 = "tab-1" -> AITab.agentError tab' = None) /\
    (AITab.id tab1 <> "tab-1" -> tab' = tab1).
Proof.
  apply (clearAgentError_defaults_to_error_tab bridge_ok "session-1" "tab-1"
           (world_of [session1]) 0 0 session1 tab1);
    [reflexivity | reflexivity | reflexivity | discriminate | reflexivity].
Defined.

(** X3: [clearAgentError] touches no tab when it has no tab to target: when
    [tabId] is the empty string (which does not fall back on the session's
    [agentErrorTabId]), or when [tabId] is absent and the session's
    [agentErrorTabId] is absent or empty. The session-level fields are reset
    all the same. *)
Theorem clearAgentError_untargeted_keeps_tabs maestro (sessionId : string)
    (tabId : option string) (w : World) (i : nat) (s : Session.t) :
  sessions w !! i = Some s ->
  Session.id s = sessionId ->
  tabId = Some "" \/
  (tabId = None /\
   (Session.agentErrorTabId s = None \/ Session.agentErrorTabId s = Some "")) ->
  exists s',
    sessions (exec (clearAgentError maestro sessionId tabId) w) !! i = Some s' /\
    Session.aiTabs s' = Session.aiTabs s /\
    Session.state s' = "idle" /\
    Session.agentError s' = None.
Proof.
  intros Hi Hid Hnone.
  exists (clearAgentError_updater tabId s).
  rewrite (clearAgentError_at _ _ _ _ _ _ Hi Hid).
  rewrite (updater_tabs_untargeted _ _ Hnone). repeat split.
Qed.

Lemma clearAgentError_untargeted_keeps_tabs_witness :
  Session.agentErrorTabId session1 = Some "tab-1" /\
  exists s',
    sessions (exec (clearAgentError bridge_ok "session-1" (Some ""))
                (world_of [session1])) !! 0 = Some s' /\
    Session.aiTabs s' = Session.aiTabs session1 /\
    Session.state s' = "idle" /\
    Session.agentError s' = None.
Proof.
  split; [reflexivity|].
  apply (clearAgentError_untargeted_keeps_tabs bridge_ok "session-1" (Some "")
           (world_of [session1]) 0 session1);
    [reflexivity | reflexivity | left; reflexivity].
Defined.

(** X4: a [tabId] that names no tab of the target session changes no tab;
    the session-level error fields are reset all the same. *)
Theorem clearAgentError_unknown_tab maestro (sessionId tabId : string)
    (w : World) (i : nat) (s : Session.t) :
  sessions w !! i = Some s ->
  Session.id s = sessionId ->
  Forall (fun tab => AITab.id tab <> tabId) (Session.aiTabs s) ->
  exists s',
    sessions (exec (clearAgentError maestro sessionId (Some tabId)) w) !! i = Some s' /\
    Session.aiTabs s' = Session.aiTabs s /\
    Session.state s' = "idle" /\
    Session.agentError s' = None /\
    Session.agentErrorTabId s' = None.
Proof.
  intros Hi Hid Hno.
  exists (clearAgentError_updater (Some tabId) s).
  rewrite (clearAgentError_at _ _ _ _ _ _ Hi Hid).
  repeat split.
  unfold clearAgentError_updater. simpl.
  destruct (truthy tabId); [|reflexivity].
  induction Hno as [|tab l Htab _ IH]; [reflexivity|].
  rewrite fmap_cons, IH.
  destruct (String.eqb_spec (AITab.id tab) tabId); [contradiction|reflexivity].
Qed.

Lemma clearAgentError_unknown_tab_witness :
  exists s',
    sessions (exec (clearAgentError bridge_ok "session-1" (Some "tab-9"))
                (world_of [session1])) !! 0 = Some s' /\
    Session.aiTabs s' = Session.aiTabs session1 /\
    Session.state s' = "idle" /\
    Session.agentError s' = None /\
    Session.agentErrorTabId s' = None.
Proof.
  apply (clearAgentError_unknown_tab bridge_ok "session-1" "tab-9"
           (world_of [session1]) 0 session1);
    [reflexivity | reflexivity | repeat constructor; discriminate].
Defined.

(** X5: [clearAgentError] creates, removes and reorders no tab: the target
    session has the same tab ids, in the same order, after the call. *)
Theorem clearAgentError_keeps_tab_ids maestro (sessionId : string)
    (tabId : option string) (w : World) (i : nat) (s : Session.t) :
  sessions w !! i = Some s ->
  Session.id s = sessionId ->
  exists s',
    sessions (exec (clearAgentError maestro sessionId tabId) w) !! i = Some s' /\
    AITab.id <$> Session.aiTabs s' = AITab.id <$> Session.aiTabs s.
Proof.
  intros Hi Hid.
  exists (clearAgentError_updater tabId s).
  rewrite (clearAgentError_at _ _ _ _ _ _ Hi Hid). split; [reflexivity|].
  apply list_eq. intros j. rewrite !list_lookup_fmap.
  destruct (Session.aiTabs s !! j) as [tab|] eqn:Hj.
  - destruct (updater_tab_at tabId s j tab Hj) as (tab' & -> & Hsame & _).
    simpl. f_equal. exact Hsame.
  - assert (Hlen : length (Session.aiTabs (clearAgentError_updater tabId s)) =
                   length (Session.aiTabs s)).
    { unfold clearAgentError_updater. simpl.
      destruct (match tabId with Some t => Some t | None => Session.agentErrorTabId s end)
        as [t|]; [|reflexivity].
      destruct (truthy t); [apply length_fmap | reflexivity]. }
    apply lookup_ge_None in Hj.
    rewrite (proj2 (lookup_ge_None _ _)); [reflexivity | lia].
Qed.

Lemma clearAgentError_keeps_tab_ids_witness :
  exists s',
    sessions (exec (clearAgentError bridge_failing "session-1" None)
                (world_of [session1])) !! 0 = Some s' /\
    AITab.id <$> Session.aiTabs s' = AITab.id <$> Session.aiTabs session1.
Proof.
  apply (clearAgentError_keeps_tab_ids bridge_failing "session-1" None
           (world_of [session1]) 0 session1); reflexivity.
Defined.

(** ** clearAgentError: repetition and the acknowledgment *)

(** X6: clearing twice leaves the session collection as clearing once does;
    only the error-acknowledgment call is issued a second time. *)
Theorem clearAgentError_idempotent maestro (sessionId : string)
    (tabId : option string) (w : World) :
  sessions (exec (clearAgentError maestro sessionId tabId)
              (exec (clearAgentError maestro sessionId tabId) w)) =
    sessions (exec (clearAgentError maestro sessionId tabId) w) /\
  issued w (exec (clearAgentError maestro sessionId tabId)
              (exec (clearAgentError maestro sessionId tabId) w)) =
    [{| call := AgentErrorClear sessionId; awaited := false |};
     {| call := AgentErrorClear sessionId; awaited := false |}].
Proof.
  split.
  - rewrite !clearAgentError_sessions.
    apply update_in_twice; [reflexivity | apply updater_idempotent].
  - apply issued_app. rewrite !clearAgentError_ipc, <- app_assoc. reflexivity.
Qed.

(** X7: the reset of the session does not depend on the acknowledgment: for
    any two bridges the collection after [clearAgentError] is the same. A
    rejected acknowledgment adds one line, 'Failed to clear agent error:'
    with the reason, to the console, and a fulfilled one adds none. *)
Theorem clearAgentError_ack_outcome maestro maestro' (sessionId : string)
    (tabId : option string) (w : World) :
  sessions (exec (clearAgentError maestro sessionId tabId) w) =
    sessions (exec (clearAgentError maestro' sessionId tabId) w) /\
  console (exec (clearAgentError maestro sessionId tabId) w) =
    console w ++
    match clearError maestro sessionId with
    | Fulfilled _ => []
    | Rejected e => [("Failed to clear agent error:", e)]
    end.
Proof.
  split.
  - rewrite !clearAgentError_sessions. reflexivity.
  - apply clearAgentError_console.
Qed.

(** ** The agent detection cache *)

Lemma refreshAgents_run maestro sshRemoteId w :
  refreshAgents maestro sshRemoteId w =
  match detect maestro sshRemoteId with
  | Fulfilled agents =>
      (Returned tt,
       with_agents agents true
         (with_ipc (ipc w ++ [{| call := AgentsDetect sshRemoteId; awaited := true |}]) w))
  | Rejected e =>
      (Thrown e,
       with_ipc (ipc w ++ [{| call := AgentsDetect sshRemoteId; awaited := true |}]) w)
  end.
Proof.
  unfold_store. simpl. destruct (detect maestro sshRemoteId); reflexivity.
Qed.

(** X8: after a successful [refreshAgents], the selectors give the detected
    list and [true], and [getAgentConfig] answers from the detected list:
    it returns the first detected agent with the given id, or nothing when
    there is none. *)
Theorem refreshAgents_then_getAgentConfig maestro (sshRemoteId : option string)
    (agents : list AgentConfig.t) (agentId : string) (w : World) :
  detect maestro sshRemoteId = Fulfilled agents ->
  selectAvailableAgents (exec (refreshAgents maestro sshRemoteId) w) = agents /\
  selectAgentsDetected (exec (refreshAgents maestro sshRemoteId) w) = true /\
  outcome (refreshAgents maestro sshRemoteId;; getAgentConfig agentId) w =
    Returned (find (fun a => String.eqb (AgentConfig.id a) agentId) agents).
Proof.
  intros Hd.
  unfold selectAvailableAgents, selectAgentsDetected, exec, outcome.
  unfold mbind, M_bind, bind. rewrite refreshAgents_run, Hd. simpl.
  repeat split.
Qed.

Lemma refreshAgents_then_getAgentConfig_witness :
  detect bridge_two_agents (Some "remote-1") = Fulfilled [agent_claude; agent_codex] /\
  selectAvailableAgents (exec (refreshAgents bridge_two_agents (Some "remote-1"))
                           (world_of [])) = [agent_claude; agent_codex] /\
  selectAgentsDetected (exec (refreshAgents bridge_two_agents (Some "remote-1"))
                          (world_of [])) = true /\
  outcome (refreshAgents bridge_two_agents (Some "remote-1");; getAgentConfig "codex")
    (world_of []) =
    Returned (find (fun a => String.eqb (AgentConfig.id a) "codex")
                [agent_claude; agent_codex]).
Proof.
  split; [reflexivity|].
  apply (refreshAgents_then_getAgentConfig bridge_two_agents (Some "remote-1")
           [agent_claude; agent_codex] "codex" (world_of [])).
  reflexivity.
Defined.

(** X9: only a successful [refreshAgents] changes the agent cache: it
    replaces the list by the detected one and sets [agentsDetected]; a
    failed [refreshAgents] keeps the cache it found, and no other action
    touches it. *)
Theorem agent_cache_frame maestro createTab (a : Action) (w : World) :
  (availableAgents (exec (perform maestro createTab a) w),
   agentsDetected (exec (perform maestro createTab a) w)) =
  match a with
  | RefreshAgents sshRemoteId =>
      match detect maestro sshRemoteId with
      | Fulfilled agents => (agents, true)
      | Rejected _ => (availableAgents w, agentsDetected w)
      end
  | _ => (availableAgents w, agentsDetected w)
  end.
Proof.
  destruct a; unfold_store; simpl; repeat (step_run; try reflexivity);
    reflexivity.
Qed.

(** X10: once agents have been detected, no action resets the flag:
    [agentsDetected] stays [true] through every action, whatever the bridge
    answers. *)
Theorem agentsDetected_stays_true maestro createTab (a : Action) (w : World) :
  agentsDetected w = true ->
  agentsDetected (exec (perform maestro createTab a) w) = true.
Proof.
  intros Hd.
  destruct a; unfold_store; simpl;
    repeat (step_run; try assumption; try reflexivity);
    first [assumption | reflexivity].
Qed.

Lemma agentsDetected_stays_true_witness :
  agentsDetected (exec (refreshAgents bridge_ok None) (world_of [])) = true /\
  agentsDetected
    (exec (perform bridge_failing createTab_append (RefreshAgents None))
       (exec (refreshAgents bridge_ok None) (world_of []))) = true.
Proof.
  split; [reflexivity|].
  apply (agentsDetected_stays_true bridge_failing createTab_append
           (RefreshAgents None) (exec (refreshAgents bridge_ok None) (world_of []))).
  reflexivity.
Defined.

(** X11: [getAgentConfig] changes nothing and returns the first cached
    agent with the given id: an agent of the cache whose id is the given
    one, with no such agent before it; it returns nothing exactly when no
    cached agent has the id. *)
Theorem getAgentConfig_first_match (agentId : string) (w : World) :
  exec (getAgentConfig agentId) w = w /\
  match outcome (getAgentConfig agentId) w with
  | Returned (Some a) =>
      AgentConfig.id a = agentId /\
      exists k,
        availableAgents w !! k = Some a /\
        forall k' a', k' < k -> availableAgents w !! k' = Some a' ->
                      AgentConfig.id a' <> agentId
  | Returned None =>
      Forall (fun a => AgentConfig.id a <> agentId) (availableAgents w)
  | Thrown _ => False
  end.
Proof.
  split; [reflexivity|].
  unfold outcome, getAgentConfig, gets. simpl.
  induction (availableAgents w) as [|a l IH]; simpl; [constructor|].
  destruct (String.eqb_spec (AgentConfig.id a) agentId) as [E|E].
  - split; [exact E|]. exists 0. split; [reflexivity|]. intros k' a' Hlt. lia.
  - destruct (find _ l) as [b|].
    + destruct IH as [Hb (k & Hk & Hbefore)]. split; [exact Hb|].
      exists (S k). split; [exact Hk|].
      intros [|k'] a' Hlt Hk'; simpl in Hk'.
      * injection Hk' as <-. exact E.
      * apply (Hbefore k' a'); [lia | exact Hk'].
    + constructor; assumption.
Qed.

(** ** What each action leaves alone *)

Lemma update_in_other sessionId updater (prev : list Session.t) (i : nat)
    (s : Session.t) :
  prev !! i = Some s ->
  Session.id s <> sessionId ->
  update_in sessionId updater prev !! i = Some s.
Proof.
  intros Hi Hne. rewrite update_in_lookup, Hi. simpl.
  destruct (String.eqb_spec (Session.id s) sessionId); [contradiction|reflexivity].
Qed.

Lemma has_session_find sessionId w :
  has_session sessionId w = true ->
  exists s, find (fun s => String.eqb (Session.id s) sessionId) (sessions w) = Some s.
Proof.
  intros H.
  destruct (find _ (sessions w)) as [s|] eqn:E; [eauto|].
  apply find_none_has_session in E. congruence.
Qed.

Lemma lookup_has_session sessionId w (i : nat) (s : Session.t) :
  sessions w !! i = Some s ->
  Session.id s = sessionId ->
  has_session sessionId w = true.
Proof.
  intros Hi Hid. unfold has_session. apply existsb_exists.
  exists s. split.
  - apply list_elem_of_In, list_elem_of_lookup. eauto.
  - rewrite Hid. apply String.eqb_refl.
Qed.

(** X12: the active session id is changed by one action only:
    [authenticateAfterError] on an id that is in the collection makes that
    id the active one; every other action, and [authenticateAfterError] on
    an id that is not in the collection, leaves it as it was. *)
Theorem activeSessionId_frame maestro createTab (a : Action) (w : World) :
  activeSessionId (exec (perform maestro createTab a) w) =
  match a with
  | AuthenticateAfterError sessionId =>
      if has_session sessionId w then sessionId else activeSessionId w
  | _ => activeSessionId w
  end.
Proof.
  destruct a; unfold_store; simpl.
  7: { destruct (find _ (sessions w)) eqn:E; simpl.
       - destruct (has_session sessionId w) eqn:Hs.
         + destruct (clearError maestro sessionId); reflexivity.
         + apply find_none_has_session in Hs. congruence.
       - apply find_none_has_session in E. rewrite E. reflexivity. }
  all: repeat (step_run; try reflexivity); reflexivity.
Qed.

(** X13: the only console line the store writes is the one for a rejected
    error-acknowledgment call. A failed detect, kill or interrupt call
    writes nothing: [refreshAgents], [getAgentConfig], [killAgent] and
    [interruptAgent] leave the console as it was, and the recovery actions
    add the line exactly when they issue the acknowledgment and it is
    rejected. *)
Theorem console_frame maestro createTab (a : Action) (w : World) :
  console (exec (perform maestro createTab a) w) =
  console w ++
  match a with
  | RefreshAgents _ | GetAgentConfig _ | KillAgent _ _ | InterruptAgent _ => []
  | ClearAgentError sessionId _ | RetryAfterError sessionId =>
      match clearError maestro sessionId with
      | Fulfilled _ => []
      | Rejected e => [("Failed to clear agent error:", e)]
      end
  | StartNewSessionAfterError sessionId _
  | RestartAgentAfterError sessionId
  | AuthenticateAfterError sessionId =>
      if has_session sessionId w then
        match clearError maestro sessionId with
        | Fulfilled _ => []
        | Rejected e => [("Failed to clear agent error:", e)]
        end
      else []
  end.
Proof.
  destruct a; simpl;
    try (destruct (has_session sessionId w) eqn:Hs;
         [apply has_session_find in Hs as [s0 Hs]
         |apply find_none_has_session in Hs]);
    unfold_store; simpl; rewrite ?Hs; simpl;
    repeat (step_run; rewrite ?app_nil_r; try reflexivity);
    rewrite ?app_nil_r; reflexivity.
Qed.

(** X14: no action changes a session other than the one it is given: a
    session whose id differs from the action's session id is the same record
    after the action, at the same place, and an action that takes no session
    id changes no session. *)
Theorem other_sessions_frame maestro createTab (a : Action) (w : World)
    (i : nat) (s : Session.t) :
  sessions w !! i = Some s ->
  target_session a <> Some (Session.id s) ->
  sessions (exec (perform maestro createTab a) w) !! i = Some s.
Proof.
  intros Hi Hne.
  assert (Hother : forall sessionId, target_session a = Some sessionId ->
                                     Session.id s <> sessionId).
  { intros sid Ht E. apply Hne. rewrite Ht, E. reflexivity. }
  destruct a; simpl in Hother;
    try specialize (Hother _ eq_refl);
    unfold_store; simpl; repeat step_run;
    repeat (apply update_in_other; [|assumption]); assumption.
Qed.

Lemma other_sessions_frame_witness :
  sessions (world_of [session1; session2]) !! 1 = Some session2 /\
  target_session (StartNewSessionAfterError "session-1" None)
    <> Some (Session.id session2) /\
  sessions (exec (perform bridge_failing createTab_append
                    (StartNewSessionAfterError "session-1" None))
              (world_of [session1; session2])) !! 1 = Some session2.
Proof.
  split; [reflexivity|]. split; [discriminate|].
  apply (other_sessions_frame bridge_failing createTab_append
           (StartNewSessionAfterError "session-1" None)
           (world_of [session1; session2]) 1 session2);
    [reflexivity | discriminate].
Defined.

(** X15: [refreshAgents], [getAgentConfig], [killAgent] and
    [interruptAgent] never write to the session store: the collection and
    the active session id are the same after them, also for a session id
    that is in the collection and also when the bridge call fails. *)
Theorem lifecycle_actions_keep_session_store maestro
    (sshRemoteId : option string) (agentId sessionId : string)
    (suffix : option string) (w : World) :
  (sessions (exec (refreshAgents maestro sshRemoteId) w) = sessions w /\
   activeSessionId (exec (refreshAgents maestro sshRemoteId) w) = activeSessionId w) /\
  (sessions (exec (getAgentConfig agentId) w) = sessions w /\
   activeSessionId (exec (getAgentConfig agentId) w) = activeSessionId w) /\
  (sessions (exec (killAgent maestro sessionId suffix) w) = sessions w /\
   activeSessionId (exec (killAgent maestro sessionId suffix) w) = activeSessionId w) /\
  (sessions (exec (interruptAgent maestro sessionId) w) = sessions w /\
   activeSessionId (exec (interruptAgent maestro sessionId) w) = activeSessionId w).
Proof.
  unfold exec. rewrite refreshAgents_run, killAgent_run, interruptAgent_run.
  destruct (detect maestro sshRemoteId); repeat split.
Qed.

(** ** The recovery actions on a session of the collection *)

(** X16: [retryAfterError] and [restartAgentAfterError] leave exactly the
    collection that [clearAgentError] on the same id leaves, whatever the
    bridge answers: a failed kill call does not undo or prevent the reset. *)
Theorem retry_restart_reset_like_clear maestro maestro' (sessionId : string)
    (w : World) :
  sessions (exec (retryAfterError maestro sessionId) w) =
    sessions (exec (clearAgentError maestro' sessionId None) w) /\
  sessions (exec (restartAgentAfterError maestro sessionId) w) =
    sessions (exec (clearAgentError maestro' sessionId None) w).
Proof.
  rewrite clearAgentError_sessions. split.
  - unfold retryAfterError. apply clearAgentError_sessions.
  - unfold_store. simpl.
    destruct (find _ (sessions w)) eqn:E; simpl.
    + repeat step_run; reflexivity.
    + symmetry. apply update_in_missing, E.
Qed.

(** X17: on a session of the collection, [authenticateAfterError] makes it
    the active session, puts it in input mode 'terminal' and resets its
    error fields as [clearAgentError] does; its tabs are those that
    [clearAgentError] leaves. *)
Theorem authenticateAfterError_on_session maestro (sessionId : string)
    (w : World) (i : nat) (s : Session.t) :
  sessions w !! i = Some s ->
  Session.id s = sessionId ->
  activeSessionId (exec (authenticateAfterError maestro sessionId) w) = sessionId /\
  exists s',
    sessions (exec (authenticateAfterError maestro sessionId) w) !! i = Some s' /\
    Session.id s' = sessionId /\
    Session.inputMode s' = "terminal" /\
    Session.state s' = "idle" /\
    Session.agentError s' = None /\
    Session.agentErrorTabId s' = None /\
    Session.agentErrorPaused s' = Some false /\
    Session.aiTabs s' = Session.aiTabs (clearAgentError_updater None s).
Proof.
  intros Hi Hid.
  destruct (has_session_find _ _ (lookup_has_session _ _ _ _ Hi Hid)) as [s0 Hs].
  unfold_store. simpl. rewrite Hs. simpl.
  destruct (clearError maestro sessionId); simpl;
    (split; [reflexivity|]);
    exists (terminal_mode (clearAgentError_updater None s));
    rewrite !update_in_lookup, Hi; simpl;
    rewrite <- Hid, !String.eqb_refl; simpl; rewrite ?String.eqb_refl;
    repeat split.
Qed.

Lemma authenticateAfterError_on_session_witness :
  sessions (world_of [session2; session1]) !! 1 = Some session1 /\
  activeSessionId (exec (authenticateAfterError bridge_ok "session-1")
                     (world_of [session2; session1])) = "session-1" /\
  exists s',
    sessions (exec (authenticateAfterError bridge_ok "session-1")
                (world_of [session2; session1])) !! 1 = Some s' /\
    Session.id s' = "session-1" /\
    Session.inputMode s' = "terminal" /\
    Session.state s' = "idle" /\
    Session.agentError s' = None /\
    Session.agentErrorTabId s' = None /\
    Session.agentErrorPaused s' = Some false /\
    Session.aiTabs s' = Session.aiTabs (clearAgentError_updater None session1).
Proof.
  split; [reflexivity|].
  apply (authenticateAfterError_on_session bridge_ok "session-1"
           (world_of [session2; session1]) 1 session1); reflexivity.
Defined.

(** X18: on a session of the collection, [startNewSessionAfterError] hands
    [createTab] the session as [clearAgentError] has reset it, with the two
    options of the caller (both absent when no options are given), and puts
    the session [createTab] returns in its place; when [createTab] returns
    null the session stays as reset. *)
Theorem startNewSessionAfterError_on_session maestro createTab
    (sessionId : string) (options : option CreateTabOptions)
    (w : World) (i : nat) (s : Session.t) :
  sessions w !! i = Some s ->
  Session.id s = sessionId ->
  sessions (exec (startNewSessionAfterError maestro createTab sessionId options) w) !! i =
  Some
    match createTab (clearAgentError_updater None s)
            {| opt_saveToHistory := options ≫= opt_saveToHistory;
               opt_showThinking := options ≫= opt_showThinking |} with
    | Some r => res_session r
    | None => clearAgentError_updater None s
    end.
Proof.
  intros Hi Hid.
  destruct (has_session_find _ _ (lookup_has_session _ _ _ _ Hi Hid)) as [s0 Hs].
  unfold_store. simpl. rewrite Hs. simpl.
  destruct (clearError maestro sessionId); simpl;
    rewrite !update_in_lookup, Hi; simpl;
    rewrite <- Hid, !String.eqb_refl; simpl; rewrite ?String.eqb_refl;
    reflexivity.
Qed.

Lemma startNewSessionAfterError_on_session_witness :
  sessions (world_of [session1]) !! 0 = Some session1 /\
  sessions (exec (startNewSessionAfterError bridge_ok createTab_append "session-1"
                    (Some {| opt_saveToHistory := Some true;
                             opt_showThinking := Some "on" |}))
              (world_of [session1])) !! 0 =
  Some
    match createTab_append (clearAgentError_updater None session1)
            {| opt_saveToHistory := Some true; opt_showThinking := Some "on" |} with
    | Some r => res_session r
    | None => clearAgentError_updater None session1
    end.
Proof.
  split; [reflexivity|].
  apply (startNewSessionAfterError_on_session bridge_ok createTab_append "session-1"
           (Some {| opt_saveToHistory := Some true; opt_showThinking := Some "on" |})
           (world_of [session1]) 0 session1); reflexivity.
Defined.

(** X19: on a session id that is in the collection, each action issues
    exactly these calls, whatever the bridge answers: the recovery actions
    the error-acknowledgment call (not awaited), [restartAgentAfterError]
    that call and then the awaited kill call on [sessionId + "-ai"]. *)
Theorem recovery_calls_on_session maestro createTab (a : Action)
    (sessionId : string) (w : World) :
  target_session a = Some sessionId ->
  has_session sessionId w = true ->
  match a with
  | ClearAgentError _ _ | StartNewSessionAfterError _ _
  | RetryAfterError _ | AuthenticateAfterError _ =>
      issued w (exec (perform maestro createTab a) w) =
        [{| call := AgentErrorClear sessionId; awaited := false |}]
  | RestartAgentAfterError _ =>
      issued w (exec (perform maestro createTab a) w) =
        [{| call := AgentErrorClear sessionId; awaited := false |};
         {| call := ProcessKill (sessionId +:+ "-ai"); awaited := true |}]
  | _ => True
  end.
Proof.
  intros Ht Hs. apply has_session_find in Hs as [s0 Hs].
  destruct a; simpl in Ht; try discriminate; injection Ht as ->; try exact I;
    unfold_store; simpl; rewrite ?Hs; simpl;
    repeat step_run; apply issued_app; simpl; rewrite <- ?app_assoc; reflexivity.
Qed.

Lemma recovery_calls_on_session_witness :
  target_session (RestartAgentAfterError "session-1") = Some "session-1" /\
  has_session "session-1" (world_of [session1]) = true /\
  issued (world_of [session1])
    (exec (perform bridge_failing createTab_append (RestartAgentAfterError "session-1"))
       (world_of [session1])) =
    [{| call := AgentErrorClear "session-1"; awaited := false |};
     {| call := ProcessKill ("session-1" +:+ "-ai"); awaited := true |}].
Proof.
  split; [reflexivity|]. split; [reflexivity|].
  apply (recovery_calls_on_session bridge_failing createTab_append
           (RestartAgentAfterError "session-1") "session-1" (world_of [session1]));
    reflexivity.
Defined.

(** X20: whatever [createTab] returns, no action changes the number of
    session records in the collection. *)
Theorem session_count_preserved maestro createTab (a : Action) (w : World) :
  length (sessions (exec (perform maestro createTab a) w)) = length (sessions w).
Proof.
  destruct a; unfold_store; simpl; repeat step_run;
    unfold update_in; rewrite ?length_fmap; reflexivity.
Qed.

(** ** The target of a kill call *)

Lemma issued_with_ipc (w : World) (evs : list IpcEvent) :
  issued w (with_ipc (ipc w ++ evs) w) = evs.
Proof. apply issued_app. reflexivity. Qed.

Lemma append_nonempty_neq (s x : string) : x <> "" -> s +:+ x <> s.
Proof.
  intros Hx. induction s as [|c s IH].
  - exact Hx.
  - change (String c s +:+ x) with (String c (s +:+ x)).
    intros [= E]. exact (IH E).
Qed.

(** X21: the target of [killAgent] is always the session id, a dash and a
    non-empty part (the suffix, or "ai"): it is never the bare session id,
    which is what [interruptAgent] sends. *)
Theorem killAgent_target_shape maestro (sessionId : string)
    (suffix : option string) (w : World) :
  exists part,
    part <> "" /\
    issued w (exec (killAgent maestro sessionId suffix) w) =
      [{| call := ProcessKill (sessionId +:+ "-" +:+ part); awaited := true |}] /\
    sessionId +:+ "-" +:+ part <> sessionId /\
    issued w (exec (interruptAgent maestro sessionId) w) =
      [{| call := ProcessInterrupt sessionId; awaited := true |}].
Proof.
  unfold exec. rewrite killAgent_run, interruptAgent_run. simpl.
  assert (Hshape : forall part, sessionId +:+ "-" +:+ part <> sessionId).
  { intros part. apply append_nonempty_neq. discriminate. }
  destruct suffix as [sfx|]; [destruct (truthy sfx) eqn:E|].
  - exists sfx. repeat split; try (apply issued_app; reflexivity); [|apply Hshape].
    intros ->. discriminate.
  - exists "ai". repeat split; try (apply issued_app; reflexivity);
      [discriminate | apply Hshape].
  - exists "ai". repeat split; try (apply issued_app; reflexivity);
      [discriminate | apply Hshape].
Qed.

(** X22: for one session, different non-empty suffixes give different kill
    targets; the suffix "ai" gives the target of the call with no suffix. *)
Theorem killAgent_suffix_injective maestro (sessionId sfx1 sfx2 : string)
    (w : World) :
  sfx1 <> "" ->
  sfx2 <> "" ->
  issued w (exec (killAgent maestro sessionId (Some sfx1)) w) =
    issued w (exec (killAgent maestro sessionId (Some sfx2)) w) ->
  sfx1 = sfx2.
Proof.
  intros H1 H2. unfold exec. rewrite !killAgent_run. cbn [snd].
  rewrite !issued_with_ipc.
  rewrite (truthy_nonempty _ H1), (truthy_nonempty _ H2).
  intros [= E].
  apply (inj (String.append "-")), (inj (String.append sessionId)), E.
Qed.

Lemma killAgent_suffix_injective_witness :
  "terminal" <> "" /\ "terminal" <> "" /\
  issued (world_of [])
    (exec (killAgent bridge_ok "session-1" (Some "terminal")) (world_of [])) =
  issued (world_of [])
    (exec (killAgent bridge_ok "session-1" (Some "terminal")) (world_of [])) /\
  "terminal" = "terminal".
Proof.
  split; [discriminate|]. split; [discriminate|]. split; [reflexivity|].
  apply (killAgent_suffix_injective bridge_ok "session-1" "terminal" "terminal"
           (world_of [])); [discriminate | discriminate | reflexivity].
Defined.

(** X23: passing "ai" as the suffix is the same as passing none: the two
    calls of [killAgent] leave the same world. *)
Theorem killAgent_ai_suffix_is_default maestro (sessionId : string) (w : World) :
  killAgent maestro sessionId (Some "ai") w = killAgent maestro sessionId None w.
Proof.
  rewrite !killAgent_run. reflexivity.
Qed.

(** ** platformUtils: the label names the platform *)

(** X24: the label tells the platform class back: it is 'Reveal in
    Explorer' only for 'win32', 'Reveal in File Manager' only for 'linux',
    and 'Reveal in Finder' only for a string that is neither. The comparison
    is exact: 'Win32' and 'Linux' get the Finder label. *)
Theorem getRevealLabel_names_platform (platform : string) :
  (getRevealLabel platform = "Reveal in Explorer" <-> platform = "win32") /\
  (getRevealLabel platform = "Reveal in File Manager" <-> platform = "linux") /\
  (getRevealLabel platform = "Reveal in Finder" <->
     platform <> "win32" /\ platform <> "linux") /\
  getRevealLabel "Win32" = "Reveal in Finder" /\
  getRevealLabel "Linux" = "Reveal in Finder".
Proof.
  unfold getRevealLabel.
  destruct (String.eqb_spec platform "win32") as [Hw|Hw];
    [|destruct (String.eqb_spec platform "linux") as [Hl|Hl]];
    subst; simpl; repeat split; intros; intuition (try discriminate; try congruence).
Qed.
